(** * Appointment scheduler: normalization and guardrail core

    A shallow embedding of [app/normalize_module.py] and [app/utils.py]
    together with the properties of the natural-language specification
    that concern them.

    Modelling conventions.
    - Python [str] values are Rocq [string]s read as ASCII text; the
      character classes ([str.isspace], [\s], [\d], [str.lower]) are the
      ASCII restrictions of the interpreter's.
    - A [datetime] is its proleptic Gregorian ordinal ([date.toordinal()])
      together with a wall-clock time of day.  Every aware datetime of the
      program lives in the single zone Asia/Kolkata, whose offset is taken
      as constant, so aware datetimes compare as their wall-clock values.
    - The datetime range (years 1 to 9999) is modelled where a phrase can
      reach its ends: [KOLKATA.localize] raises [OverflowError] on the
      first and on the last day of the range, and [dateparser.parse] may
      raise.  The additions of days to the clock reading and to an instant
      that is before the clock reading are not bounded: they only leave
      the range when the clock itself reads the last days of year 9999.
    - The system clock and the [dateparser] package are the environment of
      the program: a [World] record supplies the clock reading and the
      outcomes of [dateparser.parse].
    - Dictionaries are [gmap string PyVal]; exceptions are values of
      [PyExn] returned through the [Py] result type. *)

From Stdlib Require Import ZArith QArith Ascii String List Bool Lia.
From Stdlib Require Import DecimalString.
Set Warnings "-register-all".
From stdpp Require Import base option gmap strings.

Local Open Scope string_scope.
Local Open Scope Z_scope.

(** ** Python strings *)

Module PyStr.

(** [str.isspace] on one ASCII character: TAB, LF, VT, FF, CR, the four
    separators FS, GS, RS, US, and SPACE. *)
Definition isspace (c : ascii) : bool :=
  let n := nat_of_ascii c in
  ((9 <=? n) && (n <=? 13) || (28 <=? n) && (n <=? 32))%nat.

(** [\d] on ASCII text. *)
Definition isdigit (c : ascii) : bool :=
  let n := nat_of_ascii c in
  ((48 <=? n) && (n <=? 57))%nat.

Definition digit_val (c : ascii) : Z := Z.of_nat (nat_of_ascii c) - 48.

Definition lower_char (c : ascii) : ascii :=
  let n := nat_of_ascii c in
  if ((65 <=? n) && (n <=? 90))%nat then ascii_of_nat (n + 32) else c.

(** [s.lower()] *)
Fixpoint lower (s : string) : string :=
  match s with
  | EmptyString => EmptyString
  | String c r => String (lower_char c) (lower r)
  end.

(** [s.lstrip()] *)
Fixpoint lstrip (s : string) : string :=
  match s with
  | EmptyString => EmptyString
  | String c r => if isspace c then lstrip r else s
  end.

(** [s.rstrip()]: a character is dropped when it is white space and
    everything after it has been dropped. *)
Fixpoint rstrip (s : string) : string :=
  match s with
  | EmptyString => EmptyString
  | String c r =>
      match rstrip r with
      | EmptyString => if isspace c then EmptyString else String c EmptyString
      | r' => String c r'
      end
  end.

(** [s.strip()] *)
Definition strip (s : string) : string := rstrip (lstrip s).

(** [s.split()] with no separator: the maximal runs of characters that
    are not white space.  [cur] holds the run being read, reversed. *)
Fixpoint split_aux (s : string) (cur : list ascii) : list string :=
  let flush (rest : list string) :=
    match cur with
    | [] => rest
    | _ => string_of_list_ascii (rev cur) :: rest
    end in
  match s with
  | EmptyString => flush []
  | String c r =>
      if isspace c then flush (split_aux r []) else split_aux r (c :: cur)
  end.

Definition split (s : string) : list string := split_aux s [].

(** [s.replace(' ', '')] *)
Fixpoint remove_spaces (s : string) : string :=
  match s with
  | EmptyString => EmptyString
  | String c r =>
      if Ascii.eqb c " "%char then remove_spaces r
      else String c (remove_spaces r)
  end.

(** [s.startswith(p)] *)
Fixpoint startswith (p s : string) : bool :=
  match p, s with
  | EmptyString, _ => true
  | String a p', String b s' => Ascii.eqb a b && startswith p' s'
  | String _ _, EmptyString => false
  end.

(** [p in s] *)
Fixpoint contains (p s : string) : bool :=
  startswith p s ||
  match s with
  | EmptyString => false
  | String _ r => contains p r
  end.

(** [bool(s)] *)
Definition truthy (s : string) : bool :=
  match s with EmptyString => false | _ => true end.

End PyStr.

(** ** Dates, times and datetimes *)

Record Time := mkTime {
  hour : Z; minute : Z; second : Z; microsecond : Z
}.

Record DateTime := mkDateTime {
  toordinal : Z;      (* the calendar date, as [date.toordinal()] *)
  time : Time         (* [datetime.time()] *)
}.

(** [datetime.weekday()]: Monday is 0, Sunday is 6. *)
Definition weekday (d : DateTime) : Z := (toordinal d + 6) mod 7.

(** [dt + timedelta(days=n)] *)
Definition add_days (d : DateTime) (n : Z) : DateTime :=
  mkDateTime (toordinal d + n) (time d).

Definition time_key (t : Time) : Z :=
  ((hour t * 60 + minute t) * 60 + second t) * 1000000 + microsecond t.

(** [a < b] on two aware datetimes of the operational zone. *)
Definition dt_ltb (a b : DateTime) : bool :=
  (toordinal a <? toordinal b) ||
  ((toordinal a =? toordinal b) && (time_key (time a) <? time_key (time b))).

(** [datetime.combine(d.date(), t)] *)
Definition combine (d : DateTime) (t : Time) : DateTime :=
  mkDateTime (toordinal d) t.

(** ** RelativeWeekdayResolver *)

(** [calendar.day_name], lower-cased, in the order of its indices. *)
Definition day_names : list string :=
  ["monday"; "tuesday"; "wednesday"; "thursday"; "friday"; "saturday"; "sunday"].

(** The dictionary [weekdays] of [_parse_relative_day]: name to index. *)
Fixpoint index_of (w : string) (names : list string) (i : Z) : option Z :=
  match names with
  | [] => None
  | n :: rest => if String.eqb w n then Some i else index_of w rest (i + 1)
  end.

Definition weekdays (w : string) : option Z := index_of w day_names 0.

Definition _get_next_weekday (current_date : DateTime) (wd : Z) : DateTime :=
  let days_ahead := wd - weekday current_date in
  let days_ahead := if days_ahead <=? 0 then days_ahead + 7 else days_ahead in
  add_days current_date days_ahead.

Definition _parse_relative_day (phrase : string) (base_dt : DateTime)
  : option DateTime :=
  let phrase := PyStr.lower phrase in
  match PyStr.split phrase with
  | [w0; w1] =>
      if String.eqb w0 "next" || String.eqb w0 "this" then
        match weekdays w1 with
        | Some wd =>
            let dt := _get_next_weekday base_dt wd in
            if String.eqb w0 "next" then
              if weekday base_dt =? wd then Some (add_days dt 7) else Some dt
            else Some dt
        | None => None
        end
      else None
  | _ => None
  end.

(** ** Python values *)

Inductive PyVal :=
| PNone
| PBool (b : bool)
| PStr (s : string)
| PFloat (q : Q)
| PDateTime (d : DateTime)
| PDict (d : gmap string PyVal).

(** [bool(v)] *)
Definition truthy (v : PyVal) : bool :=
  match v with
  | PNone => false
  | PBool b => b
  | PStr s => PyStr.truthy s
  | PFloat q => negb (Qnum q =? 0)
  | PDateTime _ => true
  | PDict d => match map_to_list d with [] => false | _ => true end
  end.

(** An [Optional[str]] as a Python value, and back. *)
Definition of_opt_str (o : option string) : PyVal :=
  match o with Some s => PStr s | None => PNone end.

Definition to_opt_str (v : PyVal) : option string :=
  match v with PStr s => Some s | _ => None end.

(** [bool(o)] for an [Optional[str]]. *)
Definition opt_truthy (o : option string) : bool := truthy (of_opt_str o).

(** ** Exceptions *)

Inductive PyExn :=
| ValueError
| KeyError
| TypeError
| AttributeError
| OverflowError.

(** The outcome of a Python call: a value, or a raised exception. *)
Inductive Py (A : Type) :=
| Return (a : A)
| Raise (e : PyExn).
Arguments Return {A} a.
Arguments Raise {A} e.

Definition py_bind {A B} (f : A -> Py B) (m : Py A) : Py B :=
  match m with
  | Return a => f a
  | Raise e => Raise e
  end.

#[global] Instance Py_ret : MRet Py := @Return.
#[global] Instance Py_mbind : MBind Py := @py_bind.
#[global] Instance Py_fmap : FMap Py :=
  fun A B f m => match m with Return a => Return (f a) | Raise e => Raise e end.

(** ** Regular expressions

    The fragment of [re] that the program and [datetime.strptime] use,
    matched by backtracking in the order of the [re] module: the left
    alternative first, repetition greedy. *)

Module Re.

Inductive t :=
| Cls (p : ascii -> bool)            (* a character class *)
| Lit (s : string)                   (* literal text *)
| Seq (a b : t)
| Alt (a b : t)
| Rep (a : t) (lo : nat) (hi : option nat)   (* a{lo,hi}; [None]: a{lo,} *)
| Grp (name : string) (a : t)        (* (?P<name>a) *)
| Eos.                               (* $ without MULTILINE *)

Definition digit : t := Cls PyStr.isdigit.       (* \d *)
Definition space : t := Cls PyStr.isspace.       (* \s *)
Definition range (lo hi : ascii) : t :=          (* [lo-hi] *)
  Cls (fun c => (nat_of_ascii lo <=? nat_of_ascii c)%nat
                && (nat_of_ascii c <=? nat_of_ascii hi)%nat).

Fixpoint drop (n : nat) (s : string) : string :=
  match n, s with
  | S n', String _ r => drop n' r
  | _, _ => s
  end.

Fixpoint take (n : nat) (s : string) : string :=
  match n, s with
  | S n', String c r => String c (take n' r)
  | _, _ => EmptyString
  end.

(** The text between the position [s] and the later position [s']. *)
Definition consumed (s s' : string) : string :=
  take (String.length s - String.length s') s.

Definition captures := list (string * string).

Section Match.
Context {R : Type}.

(** [run r s caps k]: match [r] at the head of [s], then continue with
    [k] on the rest; on failure of the continuation, backtrack. *)
Fixpoint run (r : t) (s : string) (caps : captures)
    (k : string -> captures -> option R) : option R :=
  match r with
  | Cls p =>
      match s with
      | String c s' => if p c then k s' caps else None
      | EmptyString => None
      end
  | Lit l =>
      if PyStr.startswith l s then k (drop (String.length l) s) caps
      else None
  | Seq a b => run a s caps (fun s' caps' => run b s' caps' k)
  | Alt a b =>
      match run a s caps k with
      | Some x => Some x
      | None => run b s caps k
      end
  | Rep a lo hi =>
      (fix rep (fuel cnt : nat) (s : string) (caps : captures) : option R :=
         let stop := if (lo <=? cnt)%nat then k s caps else None in
         match fuel with
         | O => stop
         | S fuel' =>
             match run a s caps (fun s' caps' => rep fuel' (S cnt) s' caps') with
             | Some x => Some x
             | None => stop
             end
         end)
        (match hi with Some h => h | None => String.length s end) O s caps
  | Grp name a =>
      run a s caps (fun s' caps' => k s' ((name, consumed s s') :: caps'))
  | Eos =>
      match s with
      | EmptyString => k s caps
      | String c EmptyString =>
          if Ascii.eqb c "010"%char then k s caps else None
      | _ => None
      end
  end.
End Match.

(** [re.match(r, s)]: the rest of the text and the groups, if [r]
    matches at the start of [s]. *)
Definition match_ (r : t) (s : string) : option (string * captures) :=
  run r s [] (fun s' caps => Some (s', caps)).

Fixpoint group (name : string) (caps : captures) : option string :=
  match caps with
  | [] => None
  | (n, v) :: rest => if String.eqb n name then Some v else group name rest
  end.

End Re.

(** [re.sub(r'^at\s+', '', s)]: the pattern is anchored at the start, so
    at most one occurrence is removed. *)
Definition sub_at_prefix (s : string) : string :=
  match Re.match_ (Re.Seq (Re.Lit "at") (Re.Rep Re.space 1 None)) s with
  | Some (rest, _) => rest
  | None => s
  end.

(** ** datetime.strptime

    [_strptime] turns the format into a regular expression, directive by
    directive, matches it against the text ignoring case, and requires the
    match to cover the whole text. *)

(** The directives the program uses, as [_strptime.TimeRE] defines them. *)
Definition directive (d : ascii) : option Re.t :=
  if Ascii.eqb d "H" then   (* (?P<H>2[0-3]|[0-1]\d|\d) *)
    Some (Re.Grp "H" (Re.Alt (Re.Seq (Re.Lit "2") (Re.range "0" "3"))
                     (Re.Alt (Re.Seq (Re.range "0" "1") Re.digit) Re.digit)))
  else if Ascii.eqb d "I" then   (* (?P<I>1[0-2]|0[1-9]|[1-9]) *)
    Some (Re.Grp "I" (Re.Alt (Re.Seq (Re.Lit "1") (Re.range "0" "2"))
                     (Re.Alt (Re.Seq (Re.Lit "0") (Re.range "1" "9"))
                             (Re.range "1" "9"))))
  else if Ascii.eqb d "M" then   (* (?P<M>[0-5]\d|\d) *)
    Some (Re.Grp "M" (Re.Alt (Re.Seq (Re.range "0" "5") Re.digit) Re.digit))
  else if Ascii.eqb d "p" then   (* (?P<p>am|pm) *)
    Some (Re.Grp "p" (Re.Alt (Re.Lit "am") (Re.Lit "pm")))
  else None.

(** [TimeRE.pattern]: a bad directive is a [ValueError]. *)
Fixpoint time_re (fmt : string) : Py Re.t :=
  match fmt with
  | EmptyString => Return (Re.Lit "")
  | String c rest =>
      if Ascii.eqb c "%" then
        match rest with
        | String d rest' =>
            match directive d with
            | Some r => r' ← time_re rest'; Return (Re.Seq r r')
            | None => Raise ValueError
            end
        | EmptyString => Raise ValueError
        end
      else r' ← time_re rest; Return (Re.Seq (Re.Lit (String c "")) r')
  end.

(** [int(s)] on a string of decimal digits. *)
Definition int_of_digits (s : string) : Z :=
  fold_left (fun acc c => acc * 10 + PyStr.digit_val c) (list_ascii_of_string s) 0.

(** The loop of [_strptime] over the groups found, in their order in the
    format; [hm] is the pair of [hour] and [minute] so far. *)
Definition strptime_group (caps : Re.captures) (hm : Z * Z) (g : string * string)
  : Z * Z :=
  let '(name, v) := g in
  if String.eqb name "H" then (int_of_digits v, snd hm)
  else if String.eqb name "I" then
    let hour := int_of_digits v in
    let ampm := default "" (Re.group "p" caps) in
    if String.eqb ampm "" || String.eqb ampm "am" then
      ((if hour =? 12 then 0 else hour), snd hm)
    else if String.eqb ampm "pm" then
      ((if negb (hour =? 12) then hour + 12 else hour), snd hm)
    else (hour, snd hm)
  else if String.eqb name "M" then (fst hm, int_of_digits v)
  else hm.

(** [date(1900, 1, 1).toordinal()], the date [strptime] gives when the
    format has no date directive. *)
Definition ORDINAL_1900_01_01 : Z := 693596.

Definition strptime (data_string format : string) : Py DateTime :=
  format_regex ← time_re format;
  match Re.match_ format_regex (PyStr.lower data_string) with
  | None => Raise ValueError            (* does not match format *)
  | Some (String _ _, _) => Raise ValueError   (* unconverted data remains *)
  | Some (EmptyString, caps) =>
      let '(hour, minute) := fold_left (strptime_group caps) (rev caps) (0, 0) in
      Return (mkDateTime ORDINAL_1900_01_01 (mkTime hour minute 0 0))
  end.

(** ** TimeOfDayParser *)

Definition time_formats : list (string * Re.t) :=
  [ ("%I%p",      (* ^\d{1,2}(?:am|pm)$ *)
     Re.Seq (Re.Rep Re.digit 1 (Some 2%nat))
            (Re.Seq (Re.Alt (Re.Lit "am") (Re.Lit "pm")) Re.Eos));
    ("%I:%M%p",   (* ^\d{1,2}:\d{2}(?:am|pm)$ *)
     Re.Seq (Re.Rep Re.digit 1 (Some 2%nat))
            (Re.Seq (Re.Lit ":")
                    (Re.Seq (Re.Rep Re.digit 2 (Some 2%nat))
                            (Re.Seq (Re.Alt (Re.Lit "am") (Re.Lit "pm")) Re.Eos))));
    ("%H:%M",     (* ^\d{2}:\d{2}$ *)
     Re.Seq (Re.Rep Re.digit 2 (Some 2%nat))
            (Re.Seq (Re.Lit ":") (Re.Seq (Re.Rep Re.digit 2 (Some 2%nat)) Re.Eos))) ].

(** The loop of [_parse_time] over [time_formats]: a [ValueError] of
    [strptime] moves on to the next format. *)
Fixpoint try_time_formats (formats : list (string * Re.t)) (time_str : string)
  : Py (option DateTime) :=
  match formats with
  | [] => Return None
  | (fmt, pattern) :: rest =>
      match Re.match_ pattern time_str with
      | Some _ =>
          match strptime time_str fmt with
          | Return dt => Return (Some dt)
          | Raise ValueError => try_time_formats rest time_str
          | Raise e => Raise e
          end
      | None => try_time_formats rest time_str
      end
  end.

Definition _parse_time (time_str : string) : Py (option DateTime) :=
  let time_str := PyStr.strip (PyStr.lower time_str) in
  let time_str := sub_at_prefix time_str in
  let time_str := PyStr.remove_spaces time_str in
  try_time_formats time_formats time_str.

(** ** Formatting dates and times *)

(** ["%0<width>d" % n] *)
Definition fmt_d (width : nat) (n : Z) : string :=
  let digits (m : Z) := NilZero.string_of_uint (N.to_uint (Z.to_N m)) in
  let zeros (k : nat) := string_of_list_ascii (repeat "0"%char k) in
  if n <? 0 then
    let ds := digits (- n) in
    "-" ++ zeros (width - 1 - String.length ds)%nat ++ ds
  else
    let ds := digits n in
    zeros (width - String.length ds)%nat ++ ds.

Definition _DAYS_IN_MONTH : list Z :=
  [-1; 31; 28; 31; 30; 31; 30; 31; 31; 30; 31; 30; 31].
Definition _DAYS_BEFORE_MONTH : list Z :=
  [-1; 0; 31; 59; 90; 120; 151; 181; 212; 243; 273; 304; 334].
Definition _DI400Y : Z := 146097.
Definition _DI100Y : Z := 36524.
Definition _DI4Y : Z := 1461.

(** [datetime._ord2ymd]: ordinal to (year, month, day). *)
Definition _ord2ymd (n : Z) : Z * Z * Z :=
  let n := n - 1 in
  let n400 := n / _DI400Y in let n := n mod _DI400Y in
  let year := n400 * 400 + 1 in
  let n100 := n / _DI100Y in let n := n mod _DI100Y in
  let n4 := n / _DI4Y in let n := n mod _DI4Y in
  let n1 := n / 365 in let n := n mod 365 in
  let year := year + (n100 * 100 + n4 * 4 + n1) in
  if (n1 =? 4) || (n100 =? 4) then (year - 1, 12, 31)
  else
    let leapyear := (n1 =? 3) && (negb (n4 =? 24) || (n100 =? 3)) in
    let month := Z.shiftr (n + 50) 5 in
    let preceding :=
      nth (Z.to_nat month) _DAYS_BEFORE_MONTH 0
      + (if (2 <? month) && leapyear then 1 else 0) in
    if n <? preceding then
      let month := month - 1 in
      let preceding :=
        preceding - (nth (Z.to_nat month) _DAYS_IN_MONTH 0
                     + (if (month =? 2) && leapyear then 1 else 0)) in
      (year, month, n - preceding + 1)
    else (year, month, n - preceding + 1).

(** [dt.date().isoformat()] *)
Definition date_isoformat (d : DateTime) : string :=
  let '(y, m, dd) := _ord2ymd (toordinal d) in
  fmt_d 4 y ++ "-" ++ fmt_d 2 m ++ "-" ++ fmt_d 2 dd.

(** [t.strftime("%H:%M")] *)
Definition strftime_HM (t : Time) : string :=
  fmt_d 2 (hour t) ++ ":" ++ fmt_d 2 (minute t).

(** ** The environment: the system clock and the dateparser package *)

Record World := mkWorld {
  (** [datetime.now(KOLKATA)] *)
  clock_now : DateTime;
  (** [dateparser.parse(phrase, settings=settings)]; [None] for the call
      without settings.  The package answers with a datetime or [None],
      or raises (it does for dates at the ends of the datetime range). *)
  dateparser_parse :
    string -> option (gmap string PyVal) -> Py (option DateTime)
}.

(** ** GeneralDateParser *)

Definition _parse_with_base (w : World) (phrase : option string)
    (base_dt : DateTime) : Py (option DateTime) :=
  match phrase with
  | None => Return None
  | Some phrase =>
      if negb (PyStr.truthy phrase) then Return None
      else
        match _parse_relative_day phrase base_dt with
        | Some relative_dt => Return (Some relative_dt)
        | None =>
            let settings : gmap string PyVal :=
              list_to_map
                [ ("RELATIVE_BASE", PDateTime base_dt);
                  ("PREFER_DATES_FROM", PStr "future");
                  ("TIMEZONE", PStr "Asia/Kolkata");
                  ("RETURN_AS_TIMEZONE_AWARE", PBool true);
                  ("PREFER_DAY_OF_MONTH", PStr "first") ] in
            parsed ← dateparser_parse w phrase (Some settings);
            match parsed with
            | Some parsed => Return (Some parsed)
            | None =>
                let settings := <["DATE_ORDER" := PStr "DMY"]> settings in
                dateparser_parse w phrase (Some settings)
            end
        end
  end.

(** ** Combiner and rollover *)

Definition DEFAULT_TIME : string := "09:00".

(** [date.max.toordinal()]: 9999-12-31. *)
Definition MAXORDINAL : Z := 3652059.

(** [KOLKATA.localize(naive)].  pytz looks the zone up one day before and
    one day after the wall-clock value, so the first and the last day of
    the datetime range raise [OverflowError]; otherwise the value is
    returned with the zone attached. *)
Definition localize (naive : DateTime) : Py DateTime :=
  if (1 <? toordinal naive) && (toordinal naive <? MAXORDINAL)
  then Return naive
  else Raise OverflowError.

(** The clarification dictionary both layers return. *)
Definition clarification (message : PyVal) : PyVal :=
  PDict (list_to_map
           [ ("status", PStr "needs_clarification"); ("message", message) ]).

(** The dictionary [normalize] returns for an instant. *)
Definition normalized_result (final_dt : DateTime) : PyVal :=
  PDict (list_to_map
    [ ("normalized",
       PDict (list_to_map
                [ ("date", PStr (date_isoformat final_dt));
                  ("time", PStr (strftime_HM (time final_dt)));
                  ("tz", PStr "Asia/Kolkata") ]));
      ("normalization_confidence", PFloat (9 # 10)) ]).

Definition normalize (w : World) (date_phrase time_phrase : option string)
  : Py PyVal :=
  let now := clock_now w in
  parsed_date ← _parse_with_base w date_phrase now;
  (* the statements after the time has been resolved *)
  let continue (time_part : Time) : Py PyVal :=
    match parsed_date with
    | None => Return (clarification (PStr "Invalid or missing date"))
    | Some parsed_date =>
        final_dt ← localize (combine parsed_date time_part);
        let final_dt :=
          if dt_ltb final_dt now then
            if match date_phrase with
               | Some p =>
                   PyStr.truthy p && negb (PyStr.contains "next" (PyStr.lower p))
               | None => false
               end
            then add_days final_dt 7
            else final_dt
          else final_dt in
        Return (normalized_result final_dt)
    end in
  if opt_truthy time_phrase then
    let tp := default "" time_phrase in
    parsed_time ← _parse_time tp;
    match parsed_time with
    | Some parsed_time => continue (time parsed_time)
    | None =>
        parsed_time ← dateparser_parse w tp None;
        match parsed_time with
        | Some parsed_time => continue (time parsed_time)
        | None => Return (clarification (PStr "Invalid time format"))
        end
    end
  else
    dt ← strptime DEFAULT_TIME "%H:%M";
    continue (time dt).

(** ** GuardrailEngine *)

(** [d.get(key, dflt)] *)
Definition py_get (d : PyVal) (key : string) (dflt : PyVal) : Py PyVal :=
  match d with
  | PDict m => Return (default dflt (m !! key))
  | _ => Raise AttributeError
  end.

(** [d[key]] *)
Definition py_getitem (d : PyVal) (key : string) : Py PyVal :=
  match d with
  | PDict m =>
      match m !! key with
      | Some v => Return v
      | None => Raise KeyError
      end
  | _ => Raise TypeError
  end.

(** [isinstance(r, dict) and r.get('status') == 'needs_clarification'] *)
Definition is_needs_clarification (r : PyVal) : bool :=
  match r with
  | PDict m =>
      match m !! "status" with
      | Some (PStr s) => String.eqb s "needs_clarification"
      | _ => false
      end
  | _ => false
  end.

Definition apply_guardrails_and_build
    (ocr_result entities_result normalization_result : PyVal) : Py PyVal :=
  ents ← py_get entities_result "entities" (PDict ∅);
  if is_needs_clarification normalization_result then
    message ← py_get normalization_result "message" PNone;
    Return (clarification message)
  else
    department ← py_get ents "department" PNone;
    if negb (truthy department) then
      Return (clarification (PStr "Ambiguous or missing department"))
    else
      normalized ← py_get normalization_result "normalized" PNone;
      if negb (truthy normalized) then
        Return (clarification (PStr "Ambiguous or missing date/time"))
      else
        department ← py_getitem ents "department";
        normalized ← py_getitem normalization_result "normalized";
        date ← py_getitem normalized "date";
        normalized ← py_getitem normalization_result "normalized";
        time ← py_getitem normalized "time";
        normalized ← py_getitem normalization_result "normalized";
        tz ← py_getitem normalized "tz";
        let appointment :=
          PDict (list_to_map
                   [ ("department", department); ("date", date);
                     ("time", time); ("tz", tz) ]) in
        Return (PDict (list_to_map
                         [ ("appointment", appointment); ("status", PStr "ok") ])).

(** ** normalize, seen as three steps *)

(** Lines 99 to 111 of [normalize]: the time of day, [None] when a time
    phrase is given and neither parser reads it. *)
Definition resolve_time (w : World) (time_phrase : option string)
  : Py (option Time) :=
  if opt_truthy time_phrase then
    let tp := default "" time_phrase in
    parsed_time ← _parse_time tp;
    match parsed_time with
    | Some parsed_time => Return (Some (time parsed_time))
    | None =>
        parsed_time ← dateparser_parse w tp None;
        match parsed_time with
        | Some parsed_time => Return (Some (time parsed_time))
        | None => Return None
        end
    end
  else
    dt ← strptime DEFAULT_TIME "%H:%M";
    Return (Some (time dt)).

(** Lines 120 to 122 of [normalize]: whether the week is added. *)
Definition rolls_over (now final_dt : DateTime) (date_phrase : option string)
  : bool :=
  dt_ltb final_dt now &&
  match date_phrase with
  | Some p => PyStr.truthy p && negb (PyStr.contains "next" (PyStr.lower p))
  | None => false
  end.

(** ** Reading the dictionaries *)

(** The entry of a dictionary value, [None] when the key is missing or
    the value is not a dictionary. *)
Definition py_lookup (v : PyVal) (key : string) : option PyVal :=
  match v with
  | PDict m => m !! key
  | _ => None
  end.

(** The "time" entry of the "normalized" payload. *)
Definition time_field (r : PyVal) : option PyVal :=
  n ← py_lookup r "normalized"; py_lookup n "time".

(** The "date" entry of the "normalized" payload. *)
Definition date_field (r : PyVal) : option PyVal :=
  n ← py_lookup r "normalized"; py_lookup n "date".

(** ** Two environments for the examples

    The clock of [world_wed] reads Wednesday 2024-04-24, 16:00.  Its
    dateparser knows the phrases "today" and "yesterday", which it resolves
    against RELATIVE_BASE, and two phrases for the first day of the
    datetime range: on "1 jan 0001" it raises [OverflowError], as the
    package does when it attaches the zone, and "1 jan 0001 6am" it
    resolves to that day at 06:00.  It knows nothing else. *)

Definition small_dateparser (phrase : string)
    (settings : option (gmap string PyVal)) : Py (option DateTime) :=
  match settings with
  | Some st =>
      match st !! "RELATIVE_BASE" with
      | Some (PDateTime base) =>
          if String.eqb (PyStr.lower phrase) "today" then Return (Some base)
          else if String.eqb (PyStr.lower phrase) "yesterday"
          then Return (Some (add_days base (-1)))
          else if String.eqb (PyStr.lower phrase) "1 jan 0001"
          then Raise OverflowError
          else if String.eqb (PyStr.lower phrase) "1 jan 0001 6am"
          then Return (Some (mkDateTime 1 (mkTime 6 0 0 0)))
          else Return None
      | _ => Return None
      end
  | None => Return None
  end.

Definition world_wed : World :=
  mkWorld (mkDateTime 739000 (mkTime 16 0 0 0)) small_dateparser.

(** The same environment one week later. *)
Definition world_wed_after : World :=
  mkWorld (mkDateTime 739007 (mkTime 16 0 0 0)) small_dateparser.

(** ** The two shapes of a normalization result *)

(** [{"status": "needs_clarification", "message": <non-empty text>}] *)
Definition is_clarification_record (r : PyVal) : Prop :=
  exists message,
    py_lookup r "status" = Some (PStr "needs_clarification") /\
    py_lookup r "message" = Some (PStr message) /\
    message <> "" /\
    py_lookup r "normalized" = None.

(** [{"normalized": {"date": .., "time": .., "tz": ..}, ..}], no status *)
Definition is_normalized_record (r : PyVal) : Prop :=
  exists n date time tz,
    py_lookup r "normalized" = Some n /\
    py_lookup n "date" = Some (PStr date) /\
    py_lookup n "time" = Some (PStr time) /\
    py_lookup n "tz" = Some (PStr tz) /\
    py_lookup r "status" = None.

(** The values [normalize] can return. *)
Inductive normalize_result : PyVal -> Prop :=
| nr_invalid_time :
    normalize_result (clarification (PStr "Invalid time format"))
| nr_invalid_date :
    normalize_result (clarification (PStr "Invalid or missing date"))
| nr_normalized (final_dt : DateTime) :
    normalize_result (normalized_result final_dt).

(** ** The typed view of the guardrail's arguments and result *)

Inductive NormalizationOutcome :=
| Clarify (reason : string)
| Normalized (date time timezone : string).

Inductive FinalResult :=
| FinalClarify (reason : string)
| FinalOk (category date time timezone : string).

(** The dictionaries [normalize] builds for the two outcomes. *)
Definition encode_outcome (o : NormalizationOutcome) : PyVal :=
  match o with
  | Clarify reason => clarification (PStr reason)
  | Normalized date time timezone =>
      PDict (list_to_map
        [ ("normalized",
           PDict (list_to_map
                    [ ("date", PStr date); ("time", PStr time);
                      ("tz", PStr timezone) ]));
          ("normalization_confidence", PFloat (9 # 10)) ])
  end.

(** The dictionaries [apply_guardrails_and_build] builds. *)
Definition encode_final (f : FinalResult) : PyVal :=
  match f with
  | FinalClarify reason => clarification (PStr reason)
  | FinalOk category date time timezone =>
      PDict (list_to_map
        [ ("appointment",
           PDict (list_to_map
                    [ ("department", PStr category); ("date", PStr date);
                      ("time", PStr time); ("tz", PStr timezone) ]));
          ("status", PStr "ok") ])
  end.

(** The dictionary [extract_entities] hands to the core. *)
Definition entities_result (date_phrase time_phrase department : option string)
    (entities_confidence : Q) : PyVal :=
  PDict (list_to_map
    [ ("entities",
       PDict (list_to_map
                [ ("date_phrase", of_opt_str date_phrase);
                  ("time_phrase", of_opt_str time_phrase);
                  ("department", of_opt_str department) ]));
      ("entities_confidence", PFloat entities_confidence) ]).

(** The decision of the guardrail in the words of the specification:
    a clarification is passed on; an absent category, with which the
    specification groups the empty one, is a clarification; anything else
    is an appointment. *)
Definition decide_spec (category : option string) (o : NormalizationOutcome)
  : FinalResult :=
  match o with
  | Clarify reason => FinalClarify reason
  | Normalized date time timezone =>
      match category with
      | None | Some EmptyString =>
          FinalClarify "Ambiguous or missing department"
      | Some c => FinalOk c date time timezone
      end
  end.

(** Lines 93 to 96 of [parse_text], from the entities on. *)
Definition parse_core (w : World) (ocr_result entities : PyVal) : Py PyVal :=
  ents ← py_getitem entities "entities";
  date_phrase ← py_get ents "date_phrase" PNone;
  ents ← py_getitem entities "entities";
  time_phrase ← py_get ents "time_phrase" PNone;
  normalization ← normalize w (to_opt_str date_phrase) (to_opt_str time_phrase);
  apply_guardrails_and_build ocr_result entities normalization.

(** ** Writing a time of day in the three input styles *)

Inductive TimeStyle :=
| HourAmPm          (* "3pm" *)
| HourMinuteAmPm    (* "3:30pm" *)
| Hour24Minute.     (* "15:00" *)

(** The hour on the twelve-hour clock, and its half of the day. *)
Definition hour12 (h : Z) : Z := if h mod 12 =? 0 then 12 else h mod 12.
Definition meridiem (h : Z) : string := if h <? 12 then "am" else "pm".

(** The text of a time of day in a style.  The first style has no place
    for minutes: only a time on the hour can be written in it. *)
Definition format_time (style : TimeStyle) (t : Time) : option string :=
  match style with
  | HourAmPm =>
      if minute t =? 0
      then Some (fmt_d 1 (hour12 (hour t)) ++ meridiem (hour t))
      else None
  | HourMinuteAmPm =>
      Some (fmt_d 1 (hour12 (hour t)) ++ ":" ++ fmt_d 2 (minute t)
              ++ meridiem (hour t))
  | Hour24Minute => Some (fmt_d 2 (hour t) ++ ":" ++ fmt_d 2 (minute t))
  end.

(** Whether [_parse_time] reads the text of [h]:[m] in a style, when there
    is one, back as [h]:[m]. *)
Definition reads_back (style : TimeStyle) (h m : Z) : bool :=
  match format_time style (mkTime h m 0 0) with
  | None => true
  | Some s =>
      match _parse_time s with
      | Return (Some dt) => (hour (time dt) =? h) && (minute (time dt) =? m)
      | _ => false
      end
  end.

Definition upto (n : nat) : list Z := map Z.of_nat (seq 0 n).

(** Every hour and minute of the day, in every style. *)
Definition all_read_back : bool :=
  forallb (fun h =>
    forallb (fun m =>
      reads_back Hour24Minute h m
      && reads_back HourMinuteAmPm h m
      && reads_back HourAmPm h m)
      (upto 60))
    (upto 24).

(** * Properties *)

(** ** RelativeWeekdayResolver *)

Lemma weekday_range (d : DateTime) : 0 <= weekday d < 7.
Proof. unfold weekday. apply Z.mod_pos_bound. lia. Qed.

(** The next occurrence has the requested weekday and lies one to seven
    days after the current date. *)
Lemma _get_next_weekday_spec (current_date : DateTime) (wd : Z) :
  0 <= wd < 7 ->
  weekday (_get_next_weekday current_date wd) = wd /\
  1 <= toordinal (_get_next_weekday current_date wd) - toordinal current_date <= 7.
Proof.
  intros Hwd.
  pose proof (weekday_range current_date) as Hr.
  unfold _get_next_weekday, weekday in *. cbn [add_days toordinal].
  set (o := toordinal current_date) in *.
  destruct (Z.leb_spec (wd - (o + 6) mod 7) 0) as [Hle | Hgt].
  - split; [| lia].
    replace (o + (wd - (o + 6) mod 7 + 7) + 6)
      with (wd + ((o + 6) / 7 + 1) * 7)
      by (pose proof (Z.div_mod (o + 6) 7 ltac:(lia)); lia).
    rewrite Z.mod_add by lia. apply Z.mod_small. lia.
  - split; [| lia].
    replace (o + (wd - (o + 6) mod 7) + 6)
      with (wd + ((o + 6) / 7) * 7)
      by (pose proof (Z.div_mod (o + 6) 7 ltac:(lia)); lia).
    rewrite Z.mod_add by lia. apply Z.mod_small. lia.
Qed.

Lemma weekday_add_7 (d : DateTime) : weekday (add_days d 7) = weekday d.
Proof.
  unfold weekday, add_days. cbn [toordinal].
  replace (toordinal d + 7 + 6) with (toordinal d + 6 + 1 * 7) by lia.
  apply Z.mod_add. lia.
Qed.

(** The names of [calendar.day_name] are the keys of [weekdays], each
    mapped to its position. *)
Lemma weekdays_day_names (i : nat) (name : string) :
  day_names !! i = Some name ->
  weekdays name = Some (Z.of_nat i) /\ 0 <= Z.of_nat i < 7.
Proof.
  intros H.
  do 7 (destruct i as [| i]; [inversion H; subst; split; [reflexivity | lia] |]).
  inversion H.
Qed.

(** What [_parse_relative_day] does once the phrase has split into a
    qualifier and a weekday name. *)
Lemma _parse_relative_day_two_tokens (phrase q name : string) (wd : Z)
    (base_dt : DateTime) :
  PyStr.split (PyStr.lower phrase) = [q; name] ->
  q = "next" \/ q = "this" ->
  weekdays name = Some wd ->
  _parse_relative_day phrase base_dt =
    Some (if String.eqb q "next" && (weekday base_dt =? wd)
          then add_days (_get_next_weekday base_dt wd) 7
          else _get_next_weekday base_dt wd).
Proof.
  intros Hsplit Hq Hwd. unfold _parse_relative_day.
  rewrite Hsplit, Hwd.
  destruct Hq as [-> | ->]; cbn [String.eqb Ascii.eqb Bool.eqb orb andb].
  - destruct (weekday base_dt =? wd); reflexivity.
  - reflexivity.
Qed.

(** C2. When the reference day is itself the weekday named, the phrase
    "next <weekday>" (in any letter case) resolves to the date 14 days
    after the reference date. *)
Theorem next_same_weekday_is_14_days (phrase name : string) (i : nat)
    (base_dt : DateTime) :
  day_names !! i = Some name ->
  PyStr.split (PyStr.lower phrase) = ["next"; name] ->
  weekday base_dt = Z.of_nat i ->
  _parse_relative_day phrase base_dt = Some (add_days base_dt 14).
Proof.
  intros Hname Hsplit Hsame.
  destruct (weekdays_day_names _ _ Hname) as [Hwd Hrange].
  rewrite (_parse_relative_day_two_tokens _ _ _ _ _ Hsplit (or_introl eq_refl) Hwd).
  rewrite Hsame, Z.eqb_refl. cbn [String.eqb Ascii.eqb Bool.eqb andb].
  unfold _get_next_weekday. rewrite Hsame, Z.sub_diag. cbn [Z.leb Z.compare].
  unfold add_days. cbn [toordinal time]. f_equal. f_equal. lia.
Qed.

Lemma next_same_weekday_is_14_days_witness :
  weekday (mkDateTime 739000 (mkTime 16 0 0 0)) = 2 /\
  _parse_relative_day "Next Wednesday" (mkDateTime 739000 (mkTime 16 0 0 0))
    = Some (mkDateTime 739014 (mkTime 16 0 0 0)).
Proof.
  split; [reflexivity |].
  apply (next_same_weekday_is_14_days "Next Wednesday" "wednesday" 2);
    reflexivity.
Defined.

(** C3. A phrase "next <weekday>" or "this <weekday>" (in any letter case)
    resolves, for every reference instant, to a date that falls on the
    weekday named and is strictly after the reference date. *)
Theorem relative_day_matches_and_is_future (phrase q name : string) (i : nat)
    (base_dt : DateTime) :
  q = "next" \/ q = "this" ->
  day_names !! i = Some name ->
  PyStr.split (PyStr.lower phrase) = [q; name] ->
  exists dt,
    _parse_relative_day phrase base_dt = Some dt /\
    weekday dt = Z.of_nat i /\
    toordinal base_dt < toordinal dt.
Proof.
  intros Hq Hname Hsplit.
  destruct (weekdays_day_names _ _ Hname) as [Hwd Hrange].
  rewrite (_parse_relative_day_two_tokens _ _ _ _ _ Hsplit Hq Hwd).
  destruct (_get_next_weekday_spec base_dt _ Hrange) as [Hday Hdist].
  eexists; split; [reflexivity |].
  destruct (String.eqb q "next" && (weekday base_dt =? Z.of_nat i)).
  - rewrite weekday_add_7. split; [exact Hday |].
    unfold add_days; cbn [toordinal]. lia.
  - split; [exact Hday | lia].
Qed.

Lemma relative_day_matches_and_is_future_witness :
  exists dt,
    _parse_relative_day "THIS wednesday" (mkDateTime 739000 (mkTime 16 0 0 0))
      = Some dt /\
    weekday dt = 2 /\ 739000 < toordinal dt.
Proof.
  apply (relative_day_matches_and_is_future "THIS wednesday" "this" "wednesday" 2);
    [right; reflexivity | reflexivity | reflexivity].
Defined.

(** A phrase written as the qualifier, one space and the weekday name
    splits into exactly these two tokens. *)
Lemma exact_shape_splits (q name : string) (i : nat) (s : string) :
  q = "next" \/ q = "this" ->
  day_names !! i = Some name ->
  s = q ++ " " ++ name ->
  PyStr.split s = [q; name].
Proof.
  intros Hq Hname ->.
  do 7 (destruct i as [| i];
        [inversion Hname; subst; destruct Hq as [-> | ->]; reflexivity |]).
  inversion Hname.
Qed.

(** ** TimeOfDayParser

    The only exception of [strptime] is [ValueError], which [_parse_time]
    catches, so [_parse_time] never raises. *)

Lemma time_re_cons (c : ascii) (rest : string) :
  time_re (String c rest) =
    if Ascii.eqb c "%" then
      match rest with
      | String d rest' =>
          match directive d with
          | Some r => r' ← time_re rest'; Return (Re.Seq r r')
          | None => Raise ValueError
          end
      | EmptyString => Raise ValueError
      end
    else r' ← time_re rest; Return (Re.Seq (Re.Lit (String c "")) r').
Proof. reflexivity. Qed.

Lemma py_bind_raise {A B} (m : Py A) (f : A -> Py B) (e : PyExn) :
  m ≫= f = Raise e ->
  m = Raise e \/ exists a, m = Return a /\ f a = Raise e.
Proof. destruct m as [a | e']; cbn; [eauto | intros [= <-]; eauto]. Qed.

Lemma time_re_exn (fmt : string) (e : PyExn) :
  time_re fmt = Raise e -> e = ValueError.
Proof.
  revert e.
  assert (Hboth : (forall e, time_re fmt = Raise e -> e = ValueError) /\
                  (forall c e, time_re (String c fmt) = Raise e -> e = ValueError)).
  { induction fmt as [| a fmt [IH1 IH2]].
    - split; [discriminate |].
      intros c e. rewrite time_re_cons.
      destruct (Ascii.eqb c "%"); cbn; congruence.
    - split; [exact (IH2 a) |].
      intros c e. rewrite time_re_cons.
      destruct (Ascii.eqb c "%").
      + destruct (directive a); [| congruence].
        intros [H | (r & _ & H)]%py_bind_raise; [eauto | discriminate].
      + intros [H | (r & _ & H)]%py_bind_raise; [eauto | discriminate]. }
  exact (proj1 Hboth).
Qed.

Lemma strptime_exn (s fmt : string) (e : PyExn) :
  strptime s fmt = Raise e -> e = ValueError.
Proof.
  unfold strptime.
  destruct (time_re fmt) as [r | e'] eqn:Hre; cbn.
  - destruct (Re.match_ r (PyStr.lower s)) as [[[| c rest] caps] |];
      [| congruence | congruence].
    destruct (fold_left _ _ _); discriminate.
  - intros [= <-]. eapply time_re_exn; eassumption.
Qed.

Lemma try_time_formats_total (formats : list (string * Re.t)) (s : string) :
  exists r, try_time_formats formats s = Return r.
Proof.
  induction formats as [| [fmt pattern] rest IH]; cbn [try_time_formats].
  - eauto.
  - destruct (Re.match_ pattern s); [| exact IH].
    destruct (strptime s fmt) as [dt | e] eqn:Hp; [eauto |].
    apply strptime_exn in Hp. subst e. exact IH.
Qed.

Lemma _parse_time_total (s : string) : exists r, _parse_time s = Return r.
Proof. unfold _parse_time. apply try_time_formats_total. Qed.

(** ** normalize, seen as its steps *)

Lemma normalize_steps (w : World) (date_phrase time_phrase : option string) :
  normalize w date_phrase time_phrase =
    (parsed_date ← _parse_with_base w date_phrase (clock_now w);
     t ← resolve_time w time_phrase;
     match t with
     | None => Return (clarification (PStr "Invalid time format"))
     | Some time_part =>
         match parsed_date with
         | None => Return (clarification (PStr "Invalid or missing date"))
         | Some parsed_date =>
             final_dt ← localize (combine parsed_date time_part);
             Return (normalized_result
                       (if rolls_over (clock_now w) final_dt date_phrase
                        then add_days final_dt 7 else final_dt))
         end
     end).
Proof.
  unfold normalize, resolve_time, rolls_over.
  destruct (_parse_with_base w date_phrase (clock_now w)) as [pd | e];
    cbn [mbind Py_mbind py_bind]; [| reflexivity].
  assert (Hcont : forall time_part : Time,
    match pd with
    | Some parsed_date =>
        final_dt ← localize (combine parsed_date time_part);
        (let final_dt0 :=
           if dt_ltb final_dt (clock_now w)
           then
             if match date_phrase with
                | Some p =>
                    PyStr.truthy p
                    && negb (PyStr.contains "next" (PyStr.lower p))
                | None => false
                end
             then add_days final_dt 7
             else final_dt
           else final_dt in
         Return (normalized_result final_dt0))
    | None => Return (clarification (PStr "Invalid or missing date"))
    end =
    match pd with
    | Some parsed_date =>
        final_dt ← localize (combine parsed_date time_part);
        Return
          (normalized_result
             (if dt_ltb final_dt (clock_now w)
                 && match date_phrase with
                    | Some p =>
                        PyStr.truthy p
                        && negb (PyStr.contains "next" (PyStr.lower p))
                    | None => false
                    end
              then add_days final_dt 7
              else final_dt))
    | None => Return (clarification (PStr "Invalid or missing date"))
    end).
  { intros time_part. destruct pd as [d |]; [| reflexivity].
    destruct (localize (combine d time_part)) as [c | e];
      cbn [mbind Py_mbind py_bind]; [| reflexivity].
    destruct (dt_ltb c (clock_now w)); reflexivity. }
  destruct (opt_truthy time_phrase).
  - destruct (_parse_time (default "" time_phrase)) as [[pt |] | e];
      cbn [mbind Py_mbind py_bind]; [apply Hcont | | reflexivity].
    destruct (dateparser_parse w _ None) as [[pt |] | e];
      cbn [mbind Py_mbind py_bind]; [apply Hcont | reflexivity | reflexivity].
  - destruct (strptime DEFAULT_TIME "%H:%M") as [dt | e];
      cbn [mbind Py_mbind py_bind]; [apply Hcont | reflexivity].
Qed.

Lemma default_time : strptime DEFAULT_TIME "%H:%M"
  = Return (mkDateTime ORDINAL_1900_01_01 (mkTime 9 0 0 0)).
Proof. reflexivity. Qed.

Lemma localize_returns (naive c : DateTime) :
  localize naive = Return c -> c = naive.
Proof.
  unfold localize. destruct (_ && _); [| discriminate]. now intros [= <-].
Qed.

(** ** Combiner and rollover *)




(** The correction is not repeated: a date phrase the parser resolves to a
    day a month back is emitted three weeks in the past. *)
Example rollover_can_stay_in_the_past :
  let w := mkWorld (mkDateTime 739000 (mkTime 16 0 0 0))
                   (fun _ st => match st with
                                | Some _ =>
                                    Return (Some (mkDateTime 738970 (mkTime 0 0 0 0)))
                                | None => Return None
                                end) in
  normalize w (Some "25 march") None
    = Return (normalized_result (mkDateTime 738977 (mkTime 9 0 0 0))) /\
  dt_ltb (mkDateTime 738977 (mkTime 9 0 0 0)) (clock_now w) = true.
Proof. split; vm_compute; reflexivity. Qed.

Lemma clarification_ne_normalized (msg : PyVal) (dt : DateTime) :
  clarification msg <> normalized_result dt.
Proof.
  intros H. apply (f_equal (fun r => py_lookup r "status")) in H.
  vm_compute in H. discriminate.
Qed.

(** C4 (amended). When resolving the date phrase returns, with a date or
    with none, a time phrase that is not the empty string and that neither
    [_parse_time] nor the plain [dateparser.parse] reads makes [normalize]
    return the clarification "Invalid time format": the time error is
    reported before the date error. *)
Theorem invalid_time_reported_first (w : World) (date_phrase : option string)
    (tp : string) (parsed_date : option DateTime) :
  _parse_with_base w date_phrase (clock_now w) = Return parsed_date ->
  PyStr.truthy tp = true ->
  _parse_time tp = Return None ->
  dateparser_parse w tp None = Return None ->
  normalize w date_phrase (Some tp)
    = Return (clarification (PStr "Invalid time format")).
Proof.
  intros Hdate Htruthy Hprimary Hfallback.
  rewrite normalize_steps, Hdate. cbn [mbind Py_mbind py_bind].
  unfold resolve_time.
  change (opt_truthy (Some tp)) with (PyStr.truthy tp).
  change (default "" (Some tp)) with tp.
  rewrite Htruthy, Hprimary.
  cbn [mbind Py_mbind py_bind]. rewrite Hfallback. reflexivity.
Qed.

(** Neither phrase can be read: the time error is the one reported. *)
Lemma invalid_time_reported_first_witness :
  normalize world_wed (Some "someday") (Some "whenever")
    = Return (clarification (PStr "Invalid time format")).
Proof.
  apply (invalid_time_reported_first world_wed (Some "someday") "whenever" None);
    vm_compute; reflexivity.
Defined.

(** C4 as stated fails for the empty time phrase: no parser reads it, yet
    [normalize] takes it for a missing phrase and uses the default time. *)
Lemma empty_time_phrase_uses_default :
  _parse_time "" = Return None /\
  dateparser_parse world_wed "" None = Return None /\
  normalize world_wed (Some "this friday") (Some "")
    = Return (normalized_result (mkDateTime 739002 (mkTime 9 0 0 0))) /\
  normalize world_wed (Some "this friday") (Some "")
    <> Return (clarification (PStr "Invalid time format")).
Proof.
  assert (H : normalize world_wed (Some "this friday") (Some "")
              = Return (normalized_result (mkDateTime 739002 (mkTime 9 0 0 0))))
    by (vm_compute; reflexivity).
  split; [reflexivity | split; [reflexivity | split; [exact H |]]].
  rewrite H. intros Heq.
  assert (Heq' : normalized_result (mkDateTime 739002 (mkTime 9 0 0 0))
                 = clarification (PStr "Invalid time format"))
    by congruence.
  symmetry in Heq'. exact (clarification_ne_normalized _ _ Heq').
Qed.

(** C9. Whenever [normalize] returns a "normalized" payload, its "time"
    entry is the resolved time of day as zero-padded HH:MM, and is "09:00"
    when the time phrase is missing; the rollover does not enter into it. *)
Theorem time_field_is_resolved_time (w : World)
    (date_phrase time_phrase : option string) (r : PyVal) :
  normalize w date_phrase time_phrase = Return r ->
  is_Some (py_lookup r "normalized") ->
  exists t,
    resolve_time w time_phrase = Return (Some t) /\
    time_field r = Some (PStr (strftime_HM t)) /\
    (opt_truthy time_phrase = false -> strftime_HM t = "09:00") /\
    (forall dt n, time dt = t ->
       time_field (normalized_result (add_days dt n)) = time_field r).
Proof.
  intros Hr Hn. rewrite normalize_steps in Hr.
  destruct (_parse_with_base w date_phrase (clock_now w)) as [pd | e];
    cbn [mbind Py_mbind py_bind] in Hr; [| discriminate Hr].
  destruct (resolve_time w time_phrase) as [[t |] | e] eqn:Ht;
    cbn [mbind Py_mbind py_bind] in Hr.
  - destruct pd as [d |].
    + destruct (localize (combine d t)) as [c | e] eqn:Hc;
        cbn [mbind Py_mbind py_bind] in Hr; [| discriminate Hr].
      apply localize_returns in Hc. subst c.
      injection Hr as <-. exists t.
      assert (Hfield : forall dt, time dt = t ->
                time_field (normalized_result dt) = Some (PStr (strftime_HM t))).
      { intros dt <-. reflexivity. }
      split; [reflexivity | split; [| split]].
      * apply Hfield. destruct (rolls_over _ _ _); reflexivity.
      * intros Habsent. unfold resolve_time in Ht. rewrite Habsent in Ht.
        rewrite default_time in Ht. injection Ht as <-. reflexivity.
      * intros dt n Hdt.
        rewrite (Hfield (add_days dt n)) by exact Hdt.
        symmetry. apply Hfield. destruct (rolls_over _ _ _); reflexivity.
    + injection Hr as <-. destruct Hn as [n Hn]. vm_compute in Hn. discriminate.
  - injection Hr as <-. destruct Hn as [n Hn]. vm_compute in Hn. discriminate.
  - discriminate.
Qed.

(** "today" at "3pm" is in the past at 16:00 and rolls over; the time
    entry is still "15:00". *)
Lemma time_field_is_resolved_time_witness :
  exists t,
    resolve_time world_wed (Some "3pm") = Return (Some t) /\
    time_field (normalized_result (mkDateTime 739007 (mkTime 15 0 0 0)))
      = Some (PStr (strftime_HM t)) /\
    (opt_truthy (Some "3pm") = false -> strftime_HM t = "09:00") /\
    (forall dt n, time dt = t ->
       time_field (normalized_result (add_days dt n))
       = time_field (normalized_result (mkDateTime 739007 (mkTime 15 0 0 0)))).
Proof.
  apply (time_field_is_resolved_time world_wed (Some "today") (Some "3pm")).
  - vm_compute. reflexivity.
  - eexists. vm_compute. reflexivity.
Defined.

(** ** The two shapes of a normalization result *)

Lemma normalize_returned (w : World) (date_phrase time_phrase : option string)
    (r : PyVal) :
  normalize w date_phrase time_phrase = Return r -> normalize_result r.
Proof.
  rewrite normalize_steps.
  destruct (_parse_with_base w date_phrase (clock_now w)) as [pd | e];
    cbn [mbind Py_mbind py_bind]; [| discriminate].
  destruct (resolve_time w time_phrase) as [[t |] | e];
    cbn [mbind Py_mbind py_bind]; [| intros [= <-]; constructor | discriminate].
  destruct pd as [d |]; [| intros [= <-]; constructor].
  destruct (localize (combine d t)) as [c | e];
    cbn [mbind Py_mbind py_bind]; [| discriminate].
  intros [= <-]. constructor.
Qed.

Lemma normalize_result_shape (r : PyVal) :
  normalize_result r ->
  (is_clarification_record r /\ ~ is_normalized_record r) \/
  (is_normalized_record r /\ ~ is_clarification_record r).
Proof.
  destruct 1 as [| | final_dt].
  - left. split.
    + exists "Invalid time format". repeat split; discriminate.
    + intros (n & ? & ? & ? & Hn & _). discriminate Hn.
  - left. split.
    + exists "Invalid or missing date". repeat split; discriminate.
    + intros (n & ? & ? & ? & Hn & _). discriminate Hn.
  - right. split.
    + do 4 eexists. repeat split.
    + intros (m & Hs & _). discriminate Hs.
Qed.

Lemma py_get_cases (d : PyVal) (key : string) (dflt : PyVal) :
  (py_get d key dflt = Raise AttributeError) \/
  (exists m, d = PDict m /\ py_get d key dflt = Return (default dflt (m !! key))).
Proof. destruct d; cbn; eauto. Qed.

(** On a result of [normalize] the guardrail raises at most for a
    malformed entities argument, and never answers with the date/time
    message of its third test. *)
Lemma guardrails_on_normalize_result (ocr_result entities_result r : PyVal)
    (out : Py PyVal) :
  normalize_result r ->
  apply_guardrails_and_build ocr_result entities_result r = out ->
  out = Raise AttributeError \/
  (exists final, out = Return final /\
     py_lookup final "message"
       <> Some (PStr "Ambiguous or missing date/time")).
Proof.
  intros Hr <-. unfold apply_guardrails_and_build.
  destruct (py_get_cases entities_result "entities" (PDict ∅))
    as [-> | (er & -> & ->)]; [left; reflexivity |].
  cbn [mbind Py_mbind py_bind].
  destruct Hr as [| | final_dt].
  - right. eexists; split; [reflexivity | discriminate].
  - right. eexists; split; [reflexivity | discriminate].
  - change (is_needs_clarification (normalized_result final_dt)) with false.
    cbn iota.
    destruct (py_get_cases (default (PDict ∅) (er !! "entities")) "department" PNone)
      as [-> | (m & -> & ->)]; [left; reflexivity |].
    cbn [mbind Py_mbind py_bind py_getitem].
    destruct (m !! "department") as [v |]; cbn [default from_option id].
    + destruct (truthy v); cbn [negb].
      * right. eexists; split; [reflexivity | discriminate].
      * right. eexists; split; [reflexivity | discriminate].
    + right. eexists; split; [reflexivity | discriminate].
Qed.

(** C10. Every value [normalize] returns is either a clarification record
    (status "needs_clarification", a non-empty message, no payload) or a
    record with a "normalized" payload holding "date", "time" and "tz",
    never both; so on it the guardrail never answers "Ambiguous or missing
    date/time". *)
Theorem normalize_shapes (w : World) (date_phrase time_phrase : option string)
    (r : PyVal) :
  normalize w date_phrase time_phrase = Return r ->
  ((is_clarification_record r /\ ~ is_normalized_record r) \/
   (is_normalized_record r /\ ~ is_clarification_record r)) /\
  forall ocr_result entities_result final,
    apply_guardrails_and_build ocr_result entities_result r = Return final ->
    py_lookup final "message" <> Some (PStr "Ambiguous or missing date/time").
Proof.
  intros Hr. apply normalize_returned in Hr.
  split; [exact (normalize_result_shape r Hr) |].
  intros ocr_result entities_result final Hfinal.
  destruct (guardrails_on_normalize_result ocr_result entities_result r _
              Hr Hfinal) as [Hraise | (final' & [= <-] & Hmsg)].
  - discriminate Hraise.
  - exact Hmsg.
Qed.

Lemma normalize_shapes_witness :
  ((is_clarification_record (normalized_result (mkDateTime 739007 (mkTime 15 0 0 0)))
    /\ ~ is_normalized_record (normalized_result (mkDateTime 739007 (mkTime 15 0 0 0))))
   \/
   (is_normalized_record (normalized_result (mkDateTime 739007 (mkTime 15 0 0 0)))
    /\ ~ is_clarification_record
           (normalized_result (mkDateTime 739007 (mkTime 15 0 0 0))))) /\
  forall ocr_result entities_result final,
    apply_guardrails_and_build ocr_result entities_result
      (normalized_result (mkDateTime 739007 (mkTime 15 0 0 0))) = Return final ->
    py_lookup final "message" <> Some (PStr "Ambiguous or missing date/time").
Proof.
  apply (normalize_shapes world_wed (Some "today") (Some "3pm")).
  vm_compute. reflexivity.
Defined.

(** The third test of the guardrail can be reached, but only by a
    dictionary that [normalize] does not produce. *)
Example date_time_message_reachable :
  apply_guardrails_and_build PNone
    (PDict {[ "entities" := PDict {[ "department" := PStr "Dentistry" ]} ]})
    (PDict ∅)
  = Return (clarification (PStr "Ambiguous or missing date/time")).
Proof. vm_compute. reflexivity. Qed.

(** ** Dependence on the clock *)

(** [normalize] reads the clock itself: the same two phrases, given to it
    a week apart with everything else unchanged, yield different dates. *)
Example normalize_reads_the_clock :
  dateparser_parse world_wed = dateparser_parse world_wed_after /\
  date_field <$> normalize world_wed (Some "this friday") None
    = Return (Some (PStr "2024-04-26")) /\
  date_field <$> normalize world_wed_after (Some "this friday") None
    = Return (Some (PStr "2024-05-03")).
Proof. repeat split; vm_compute; reflexivity. Qed.

(** ** GuardrailEngine *)

Lemma normalized_result_encode (dt : DateTime) :
  normalized_result dt =
  encode_outcome (Normalized (date_isoformat dt) (strftime_HM (time dt)) "Asia/Kolkata").
Proof. reflexivity. Qed.

Lemma guardrails_on_outcome (ocr_result : PyVal)
    (date_phrase time_phrase category : option string) (conf : Q)
    (o : NormalizationOutcome) :
  apply_guardrails_and_build ocr_result
    (entities_result date_phrase time_phrase category conf) (encode_outcome o)
  = Return (encode_final (decide_spec category o)).
Proof.
  destruct o as [reason | date time timezone].
  - reflexivity.
  - destruct category as [[| c s] |]; reflexivity.
Qed.

(** C6. The guardrail passes a clarification on with its reason
    unchanged; for a normalized outcome it answers "Ambiguous or missing
    department" when the category is absent (or empty), and otherwise
    builds the appointment from the category and the payload's date, time
    and timezone.  Nothing else is examined. *)
Theorem guardrail_decision (ocr_result : PyVal)
    (date_phrase time_phrase category : option string) (conf : Q)
    (o : NormalizationOutcome) :
  apply_guardrails_and_build ocr_result
    (entities_result date_phrase time_phrase category conf) (encode_outcome o)
  = Return (encode_final (decide_spec category o)).
Proof. apply guardrails_on_outcome. Qed.

Lemma normalize_result_reason (r : PyVal) :
  normalize_result r ->
  exists o, r = encode_outcome o /\
            match o with Clarify reason => reason <> "" | _ => True end.
Proof.
  destruct 1 as [| | final_dt].
  - exists (Clarify "Invalid time format"). split; [reflexivity | discriminate].
  - exists (Clarify "Invalid or missing date"). split; [reflexivity | discriminate].
  - eexists. split; [apply normalized_result_encode | exact I].
Qed.

Lemma to_of_opt_str (o : option string) : to_opt_str (of_opt_str o) = o.
Proof. destruct o; reflexivity. Qed.

(** [parse_core] on the entities of [extract_entities]: the two phrases are
    handed to [normalize] and its result to the guardrail. *)
Lemma parse_core_steps (w : World) (ocr_result : PyVal)
    (date_phrase time_phrase category : option string) (conf : Q) :
  parse_core w ocr_result
    (entities_result date_phrase time_phrase category conf)
  = (normalization ← normalize w date_phrase time_phrase;
     apply_guardrails_and_build ocr_result
       (entities_result date_phrase time_phrase category conf) normalization).
Proof.
  unfold parse_core.
  change (py_getitem (entities_result date_phrase time_phrase category conf) "entities")
    with (Return (PDict (list_to_map
                [ ("date_phrase", of_opt_str date_phrase);
                  ("time_phrase", of_opt_str time_phrase);
                  ("department", of_opt_str category) ]))).
  cbn [mbind Py_mbind py_bind].
  change (py_get (PDict (list_to_map
                [ ("date_phrase", of_opt_str date_phrase);
                  ("time_phrase", of_opt_str time_phrase);
                  ("department", of_opt_str category) ])) "date_phrase" PNone)
    with (Return (of_opt_str date_phrase)).
  change (py_get (PDict (list_to_map
                [ ("date_phrase", of_opt_str date_phrase);
                  ("time_phrase", of_opt_str time_phrase);
                  ("department", of_opt_str category) ])) "time_phrase" PNone)
    with (Return (of_opt_str time_phrase)).
  cbn [mbind Py_mbind py_bind].
  now rewrite !to_of_opt_str.
Qed.

(** When [normalize] returns, the core returns a clarification with a
    non-empty reason or an appointment for the given category. *)
Lemma core_well_formed_when_normalize_returns (w : World) (ocr_result : PyVal)
    (date_phrase time_phrase category : option string) (conf : Q) (r : PyVal) :
  normalize w date_phrase time_phrase = Return r ->
  exists f : FinalResult,
    parse_core w ocr_result
      (entities_result date_phrase time_phrase category conf)
    = Return (encode_final f) /\
    match f with
    | FinalClarify reason => reason <> ""
    | FinalOk c _ _ _ => category = Some c
    end.
Proof.
  intros Hr. rewrite parse_core_steps, Hr. cbn [mbind Py_mbind py_bind].
  apply normalize_returned in Hr.
  destruct (normalize_result_reason r Hr) as (o & -> & Ho).
  rewrite guardrails_on_outcome. eexists; split; [reflexivity |].
  destruct o as [reason | date time timezone]; [exact Ho |].
  destruct category as [[| c s] |]; cbn; (discriminate || reflexivity).
Qed.

(** C8. The core does raise on a string input: a date phrase that
    dateparser resolves to the first day of the datetime range makes
    [KOLKATA.localize] raise [OverflowError] at line 117, and a phrase on
    which dateparser itself overflows makes line 81 raise; neither call is
    inside a try, so the exception leaves [normalize] and the core. *)
Theorem core_raises_overflow_error :
  parse_core world_wed PNone
    (entities_result (Some "1 jan 0001 6am") None (Some "Dentistry") (8 # 10))
    = Raise OverflowError /\
  parse_core world_wed PNone
    (entities_result (Some "1 jan 0001") (Some "6am") (Some "Dentistry") (9 # 10))
    = Raise OverflowError.
Proof. split; vm_compute; reflexivity. Qed.

(** ** Round trip through the time parser *)

Lemma in_upto (n : nat) (z : Z) : 0 <= z < Z.of_nat n -> In z (upto n).
Proof.
  intros Hz. unfold upto. apply in_map_iff. exists (Z.to_nat z).
  split; [lia |]. apply in_seq. lia.
Qed.

Lemma all_read_back_true : all_read_back = true.
Proof. vm_compute. reflexivity. Qed.

Lemma reads_back_valid (style : TimeStyle) (h m : Z) :
  0 <= h < 24 -> 0 <= m < 60 -> reads_back style h m = true.
Proof.
  intros Hh Hm.
  pose proof all_read_back_true as Hall. unfold all_read_back in Hall.
  rewrite forallb_forall in Hall.
  specialize (Hall h (in_upto 24 h Hh)).
  rewrite forallb_forall in Hall.
  specialize (Hall m (in_upto 60 m Hm)).
  apply andb_prop in Hall as [Hall Ha]. apply andb_prop in Hall as [H24 Hhm].
  destruct style; assumption.
Qed.

(** Every time of day can be written in the two styles with minutes, and
    exactly the times on the hour in the style without. *)
Lemma format_time_defined (style : TimeStyle) (t : Time) :
  format_time style t = None <-> style = HourAmPm /\ minute t <> 0.
Proof.
  destruct style; cbn [format_time].
  - destruct (Z.eqb_spec (minute t) 0); split; try discriminate; intuition.
  - split; [discriminate | intros [H _]; discriminate H].
  - split; [discriminate | intros [H _]; discriminate H].
Qed.

(** C7. A time of day with hour 0 to 23 and minute 0 to 59, written in any
    of the three input styles (hour with am/pm, hour:minute with am/pm,
    zero-padded 24-hour hour:minute), is read back by [_parse_time] with
    the same hour and minute. *)
Theorem time_round_trip (style : TimeStyle) (t : Time) (s : string) :
  0 <= hour t < 24 -> 0 <= minute t < 60 ->
  format_time style t = Some s ->
  exists dt,
    _parse_time s = Return (Some dt) /\
    hour (time dt) = hour t /\ minute (time dt) = minute t.
Proof.
  intros Hh Hm Hs.
  pose proof (reads_back_valid style (hour t) (minute t) Hh Hm) as H.
  unfold reads_back in H.
  replace (format_time style (mkTime (hour t) (minute t) 0 0))
    with (format_time style t) in H by (destruct style; reflexivity).
  rewrite Hs in H.
  destruct (_parse_time s) as [[dt |] | e]; try discriminate H.
  apply andb_prop in H as [H1 H2].
  exists dt. split; [reflexivity |]. split; lia.
Qed.

Lemma time_round_trip_witness :
  exists dt,
    _parse_time "3:30pm" = Return (Some dt) /\
    hour (time dt) = 15 /\ minute (time dt) = 30.
Proof.
  apply (time_round_trip HourMinuteAmPm (mkTime 15 30 0 0) "3:30pm");
    [cbn; lia | cbn; lia | reflexivity].
Defined.
